(** * Geocoding API: a shallow embedding of [src/main.py]

    The program is a FastAPI facade over the Photon geocoding service.
    Three functions ([search_place], [search_with_location],
    [reverse_geocode]) issue one blocking GET each and translate failures
    into [HTTPException]s; six route handlers bind request parameters, call
    one of the three functions and, for the search family, project every
    upstream feature into a [PlaceResponse].

    Python values decoded from JSON are the inductive type [value]; a dict is
    a [gmap string value].  Exceptions are explicit: a computation returns an
    [outcome].  The upstream service is an oracle from requests to replies,
    and every computation reports the list of requests it sent. *)

From Stdlib Require Import ZArith SpecFloat.
From stdpp Require Import base option strings list gmap pretty.

Local Set Warnings "-register-all".
Local Open Scope Z_scope.

(** ** Python values *)

(** A Python [float] is an IEEE 754 binary64; the program only passes floats
    through, so the specification-level representation is enough. *)
Definition float : Type := spec_float.

Inductive value : Type :=
| VNone
| VBool (b : bool)
| VInt (n : Z)
| VFloat (x : float)
| VStr (s : string)
| VList (l : list value)
| VDict (d : gmap string value).

(** [type(v).__name__], as it appears in the text of a [TypeError]. *)
Definition type_name (v : value) : string :=
  match v with
  | VNone => "NoneType"
  | VBool _ => "bool"
  | VInt _ => "int"
  | VFloat _ => "float"
  | VStr _ => "str"
  | VList _ => "list"
  | VDict _ => "dict"
  end.

(** Truth value testing, as [if v:] and [if not v:] do it. *)
Definition truthy (v : value) : bool :=
  match v with
  | VNone => false
  | VBool b => b
  | VInt n => negb (n =? 0)
  | VFloat (S754_zero _) => false
  | VFloat _ => true
  | VStr s => negb (String.eqb s "")
  | VList l => match l with [] => false | _ => true end
  | VDict d => negb (bool_decide (d = ∅))
  end.

(** An [Optional[int]] and an [Optional[str]] argument as the value the
    interpreter holds. *)
Definition of_optional_int (o : option Z) : value := from_option VInt VNone o.
Definition of_optional_str (o : option string) : value := from_option VStr VNone o.

(** The characters of a string, each a string of length one. *)
Fixpoint chars (s : string) : list value :=
  match s with
  | EmptyString => []
  | String c rest => VStr (String c EmptyString) :: chars rest
  end.

(** ** Upstream service *)

(** One outbound [client.get(url, params=params)]. *)
Record request : Type := Request {
  url : string;
  params : gmap string value
}.

(** What [response.json()] finds: a decoded document, or text that is not
    JSON (the decoder then raises with the given text). *)
Inductive body : Type :=
| Json (v : value)
| Malformed (text : string).

Record response : Type := Response {
  status_code : Z;
  content : body
}.

(** The upstream either answers, or the transport fails ([ConnectError],
    [ReadTimeout], ...) with an exception of class [cls] whose [str] is
    [text]. *)
Inductive reply : Type :=
| Answer (r : response)
| TransportError (cls text : string).

Definition upstream : Type := request → reply.

(** ** Exceptions *)

Inductive exn : Type :=
| HTTPStatusError (message : string) (resp : response)  (* httpx *)
| HTTPException (code : Z) (detail : string)            (* fastapi *)
| RequestValidationError                                (* fastapi, before the handler runs *)
| PyError (cls text : string).                          (* any other subclass of Exception *)

(** [str(e)]. Starlette prints an [HTTPException] as ["{status_code}: {detail}"]. *)
Definition str (e : exn) : string :=
  match e with
  | HTTPStatusError message _ => message
  | HTTPException code detail => pretty code +:+ ": " +:+ detail
  | RequestValidationError => "request validation error"
  | PyError _ text => text
  end.

Inductive outcome (A : Type) : Type :=
| Return (a : A)
| Raise (e : exn).
Arguments Return {A} a.
Arguments Raise {A} e.

#[export] Instance outcome_ret : MRet outcome := @Return.
#[export] Instance outcome_bind : MBind outcome := λ A B f m,
  match m with
  | Return a => f a
  | Raise e => Raise e
  end.

(** The status line a caller of the HTTP API sees: 200 for a returned value,
    the code of an [HTTPException], 422 for a request FastAPI refuses to
    bind, and the server-error page (500, no structured detail) for any
    exception that escapes a handler untranslated. *)
Definition response_status {A} (o : outcome A) : Z :=
  match o with
  | Return _ => 200
  | Raise (HTTPException code _) => code
  | Raise RequestValidationError => 422
  | Raise _ => 500
  end.

(** The [detail] of the structured error body, when there is one. *)
Definition response_detail {A} (o : outcome A) : option string :=
  match o with
  | Raise (HTTPException _ detail) => Some detail
  | _ => None
  end.

(** ** Computations that talk to the upstream

    A computation reads the oracle, and yields the requests it sent, in
    order, together with its outcome. *)
Definition IO (A : Type) : Type := upstream → list request * outcome A.

Definition calls {A} (r : list request * outcome A) : list request := r.1.
Definition result {A} (r : list request * outcome A) : outcome A := r.2.

#[export] Instance IO_ret : MRet IO := λ A a _, ([], Return a).
#[export] Instance IO_bind : MBind IO := λ A B f m up,
  match m up with
  | (sent, Return a) => let '(sent', o) := f a up in (sent ++ sent', o)
  | (sent, Raise e) => (sent, Raise e)
  end.

Definition lift {A} (o : outcome A) : IO A := λ _, ([], o).
Definition raise {A} (e : exn) : IO A := lift (Raise e).

(** [try: body / except ... as e: handler e]. *)
Definition try_except {A} (body : IO A) (handler : exn → IO A) : IO A := λ up,
  match body up with
  | (sent, Return a) => (sent, Return a)
  | (sent, Raise e) => let '(sent', o) := handler e up in (sent ++ sent', o)
  end.

(** ** Operations on values *)

(** [obj[key]] for a string key. *)
Definition getitem (obj : value) (key : string) : outcome value :=
  match obj with
  | VDict d =>
      match d !! key with
      | Some v => Return v
      | None => Raise (PyError "KeyError" ("'" +:+ key +:+ "'"))
      end
  | VList _ => Raise (PyError "TypeError" "list indices must be integers or slices, not str")
  | VStr _ => Raise (PyError "TypeError" "string indices must be integers, not 'str'")
  | _ => Raise (PyError "TypeError" ("'" +:+ type_name obj +:+ "' object is not subscriptable"))
  end.

(** [obj[0]]. The keys of a decoded JSON object are strings, so the integer
    key is never found in a dict. *)
Definition getitem0 (obj : value) : outcome value :=
  match obj with
  | VList (x :: _) => Return x
  | VList [] => Raise (PyError "IndexError" "list index out of range")
  | VStr (String c _) => Return (VStr (String c EmptyString))
  | VStr EmptyString => Raise (PyError "IndexError" "string index out of range")
  | VDict _ => Raise (PyError "KeyError" "0")
  | _ => Raise (PyError "TypeError" ("'" +:+ type_name obj +:+ "' object is not subscriptable"))
  end.

(** [obj.get(key)]: only a dict has the method. *)
Definition get (obj : value) (key : string) : outcome value :=
  match obj with
  | VDict d => Return (default VNone (d !! key))
  | _ => Raise (PyError "AttributeError"
                  ("'" +:+ type_name obj +:+ "' object has no attribute 'get'"))
  end.

(** The elements [for x in obj] visits. A dict yields its keys (here in the
    order of [map_to_list], not of insertion). *)
Definition iterate (obj : value) : outcome (list value) :=
  match obj with
  | VList l => Return l
  | VStr s => Return (chars s)
  | VDict d => Return (VStr <$> (map_to_list d).*1)
  | _ => Raise (PyError "TypeError" ("'" +:+ type_name obj +:+ "' object is not iterable"))
  end.

(** ** The program *)

Definition BASE_URL : string := "https://photon.komoot.io".

Record PlaceSearchRequest : Type := {
  psr_query : string;
  psr_limit : option Z;
  psr_lang : option string
}.

Record LocationSearchRequest : Type := {
  lsr_query : string;
  lsr_lat : float;
  lsr_lon : float
}.

Record ReverseGeocodeRequest : Type := {
  rgr_lat : float;
  rgr_lon : float
}.

Record PlaceResponse : Type := {
  name : option string;
  country : option string;
  coordinates : list float;
  properties : gmap string value
}.

Section Geocoding.

(** The text httpx gives the [HTTPStatusError] of a failed response (it
    names the status line and the URL of the request). *)
Variable status_error_message : response → string.

(** Pydantic's validators for the scalar types [str], [int] and [float]:
    [None] when the value is refused. Which foreign values are coerced
    (a query-string ["52.5"] into a float, say) is the library's business;
    a value that already has the type is taken as it is. *)
Variable validate_str : value → option string.
Variable validate_int : value → option Z.
Variable validate_float : value → option float.
Hypothesis validate_str_id : ∀ s, validate_str (VStr s) = Some s.
Hypothesis validate_int_id : ∀ n, validate_int (VInt n) = Some n.
Hypothesis validate_float_id : ∀ x, validate_float (VFloat x) = Some x.

(** *** HTTP client *)

(** [client.get(url, params=params)] inside [with httpx.Client()]. *)
Definition client_get (url : string) (params : gmap string value) : IO response := λ up,
  ([Request url params],
   match up (Request url params) with
   | Answer r => Return r
   | TransportError cls text => Raise (PyError cls text)
   end).

Definition is_success (r : response) : bool :=
  (200 <=? status_code r) && (status_code r <=? 299).

Definition raise_for_status (r : response) : outcome unit :=
  if is_success r then Return tt
  else Raise (HTTPStatusError (status_error_message r) r).

Definition json (r : response) : outcome value :=
  match content r with
  | Json v => Return v
  | Malformed text => Raise (PyError "JSONDecodeError" text)
  end.

(** The two [except] clauses every upstream function ends with. *)
Definition upstream_handlers {A} (e : exn) : IO A :=
  match e with
  | HTTPStatusError _ resp =>
      raise (HTTPException (status_code resp) ("Geocoding service error: " +:+ str e))
  | _ => raise (HTTPException 500 ("Unexpected error: " +:+ str e))
  end.

(** *** Geocoding functions *)

(** [params = {"q": query}], then [limit] and [lang] are added under
    [if limit:] and [if lang:]. *)
Definition search_place_params (query : string) (limit : option Z) (lang : option string)
  : gmap string value :=
  let params : gmap string value := {["q" := VStr query]} in
  let params :=
    if truthy (of_optional_int limit)
    then <["limit" := of_optional_int limit]> params else params in
  let params :=
    if truthy (of_optional_str lang)
    then <["lang" := of_optional_str lang]> params else params in
  params.

Definition search_place (query : string) (limit : option Z) (lang : option string)
  : IO value :=
  let params := search_place_params query limit lang in
  try_except
    (response ← client_get (BASE_URL +:+ "/api/") params;
     _ ← lift (raise_for_status response);
     doc ← lift (json response);
     lift (getitem doc "features"))
    upstream_handlers.

Definition search_with_location_params (query : string) (lat lon : float)
  : gmap string value :=
  <["q" := VStr query]> (<["lat" := VFloat lat]> (<["lon" := VFloat lon]> ∅)).

Definition search_with_location (query : string) (lat lon : float) : IO value :=
  let params := search_with_location_params query lat lon in
  try_except
    (response ← client_get (BASE_URL +:+ "/api/") params;
     _ ← lift (raise_for_status response);
     doc ← lift (json response);
     lift (getitem doc "features"))
    upstream_handlers.

Definition reverse_geocode_params (lat lon : float) : gmap string value :=
  <["lat" := VFloat lat]> (<["lon" := VFloat lon]> ∅).

Definition reverse_geocode (lat lon : float) : IO value :=
  let params := reverse_geocode_params lat lon in
  try_except
    (response ← client_get (BASE_URL +:+ "/reverse") params;
     _ ← lift (raise_for_status response);
     doc ← lift (json response);
     features ← lift (getitem doc "features");
     if negb (truthy features)
     then raise (HTTPException 404 "No location found for the given coordinates")
     else
       first ← lift (getitem0 features);
       lift (getitem first "properties"))
    upstream_handlers.

(** *** Response model *)

(** A field of type [Optional[T]]. *)
Definition validate_optional {T} (validate : value → option T) (v : value)
  : option (option T) :=
  match v with
  | VNone => Some None
  | _ => Some <$> validate v
  end.

(** The field [coordinates: List[float]]. *)
Definition validate_float_list (v : value) : option (list float) :=
  match v with
  | VList l => mapM validate_float l
  | _ => None
  end.

(** The field [properties: Dict[str, Any]]; the keys of a decoded JSON
    object are strings already. *)
Definition validate_dict (v : value) : option (gmap string value) :=
  match v with
  | VDict d => Some d
  | _ => None
  end.

(** [PlaceResponse(name=..., country=..., coordinates=..., properties=...)]:
    the model validates its four fields and raises one [ValidationError]
    when any of them is refused. *)
Definition PlaceResponse_init (name country coordinates properties : value)
  : outcome PlaceResponse :=
  match validate_optional validate_str name,
        validate_optional validate_str country,
        validate_float_list coordinates,
        validate_dict properties with
  | Some n, Some c, Some xs, Some d =>
      Return {| name := n; country := c; coordinates := xs; properties := d |}
  | _, _, _, _ => Raise (PyError "ValidationError" "validation error for PlaceResponse")
  end.

(** *** Projection of the features

    The body of the [for feature in features:] loop, which the four search
    handlers repeat word for word. *)
Definition project (feature : value) : outcome PlaceResponse :=
  props ← getitem feature "properties";
  geometry ← getitem feature "geometry";
  coords ← getitem geometry "coordinates";
  name ← get props "name";
  country ← get props "country";
  PlaceResponse_init name country coords props.

(** The loop itself: [results] grows by [append], and the first feature
    that raises ends the loop. *)
Fixpoint for_features (features : list value) (results : list PlaceResponse)
  : outcome (list PlaceResponse) :=
  match features with
  | [] => Return results
  | feature :: rest =>
      r ← project feature;
      for_features rest (results ++ [r])
  end.

(** *** Route handlers *)

Definition search_places (request : PlaceSearchRequest) : IO (list PlaceResponse) :=
  features ← search_place (psr_query request) (psr_limit request) (psr_lang request);
  items ← lift (iterate features);
  lift (for_features items []).

Definition search_places_get (query : string) (limit : option Z) (lang : option string)
  : IO (list PlaceResponse) :=
  features ← search_place query limit lang;
  items ← lift (iterate features);
  lift (for_features items []).

Definition search_with_location_priority (request : LocationSearchRequest)
  : IO (list PlaceResponse) :=
  features ← search_with_location (lsr_query request) (lsr_lat request) (lsr_lon request);
  items ← lift (iterate features);
  lift (for_features items []).

Definition search_with_location_priority_get (query : string) (lat lon : float)
  : IO (list PlaceResponse) :=
  features ← search_with_location query lat lon;
  items ← lift (iterate features);
  lift (for_features items []).

Definition reverse_geocode_endpoint (request : ReverseGeocodeRequest) : IO value :=
  reverse_geocode (rgr_lat request) (rgr_lon request).

Definition reverse_geocode_endpoint_get (lat lon : float) : IO value :=
  reverse_geocode lat lon.

(** *** Request binding

    FastAPI binds the parameters a handler declares before it calls the
    handler: a field without a default ([Query(...)], a model field with no
    default) is required, one whose default is [None] is optional, and a
    request that does not bind is answered 422 without the handler being
    run. *)
Definition required {T} (validate : value → option T) (field : option value)
  : outcome T :=
  match field ≫= validate with
  | Some x => Return x
  | None => Raise RequestValidationError
  end.

Definition optional {T} (validate : value → option T) (field : option value)
  : outcome (option T) :=
  match field with
  | None => Return None
  | Some v =>
      match validate_optional validate v with
      | Some o => Return o
      | None => Raise RequestValidationError
      end
  end.

(** The fields of a JSON body; a body that is not an object has none of
    the required ones. *)
Definition body_field (doc : value) (key : string) : option value :=
  match doc with
  | VDict d => d !! key
  | _ => None
  end.

(** The parameters of a query string arrive as text. *)
Definition query_field (qs : gmap string string) (key : string) : option value :=
  VStr <$> qs !! key.

Definition post_search (doc : value) : IO (list PlaceResponse) :=
  query ← lift (required validate_str (body_field doc "query"));
  limit ← lift (optional validate_int (body_field doc "limit"));
  lang ← lift (optional validate_str (body_field doc "lang"));
  search_places {| psr_query := query; psr_limit := limit; psr_lang := lang |}.

Definition get_search (qs : gmap string string) : IO (list PlaceResponse) :=
  query ← lift (required validate_str (query_field qs "query"));
  limit ← lift (optional validate_int (query_field qs "limit"));
  lang ← lift (optional validate_str (query_field qs "lang"));
  search_places_get query limit lang.

Definition post_search_location (doc : value) : IO (list PlaceResponse) :=
  query ← lift (required validate_str (body_field doc "query"));
  lat ← lift (required validate_float (body_field doc "lat"));
  lon ← lift (required validate_float (body_field doc "lon"));
  search_with_location_priority {| lsr_query := query; lsr_lat := lat; lsr_lon := lon |}.

Definition get_search_location (qs : gmap string string) : IO (list PlaceResponse) :=
  query ← lift (required validate_str (query_field qs "query"));
  lat ← lift (required validate_float (query_field qs "lat"));
  lon ← lift (required validate_float (query_field qs "lon"));
  search_with_location_priority_get query lat lon.

Definition post_reverse (doc : value) : IO value :=
  lat ← lift (required validate_float (body_field doc "lat"));
  lon ← lift (required validate_float (body_field doc "lon"));
  reverse_geocode_endpoint {| rgr_lat := lat; rgr_lon := lon |}.

Definition get_reverse (qs : gmap string string) : IO value :=
  lat ← lift (required validate_float (query_field qs "lat"));
  lon ← lift (required validate_float (query_field qs "lon"));
  reverse_geocode_endpoint_get lat lon.

(** *** Vocabulary of the properties *)

(** The request each of the three functions sends. *)
Definition search_place_request (query : string) (limit : option Z) (lang : option string)
  : request :=
  Request (BASE_URL +:+ "/api/") (search_place_params query limit lang).

Definition search_with_location_request (query : string) (lat lon : float) : request :=
  Request (BASE_URL +:+ "/api/") (search_with_location_params query lat lon).

Definition reverse_geocode_request (lat lon : float) : request :=
  Request (BASE_URL +:+ "/reverse") (reverse_geocode_params lat lon).

(** The upstream answered with a status outside 200..299. *)
Definition non_2xx (rep : reply) (r : response) : Prop :=
  rep = Answer r ∧ ¬ (200 ≤ status_code r ≤ 299).

(** The upstream call succeeded and the decoded document holds [features]
    under the key ["features"]. *)
Definition succeeds_with (rep : reply) (features : value) : Prop :=
  ∃ r d, rep = Answer r ∧ 200 ≤ status_code r ≤ 299 ∧
         content r = Json (VDict d) ∧ d !! "features" = Some features.

(** A failure of the upstream call that is not a status outside 200..299,
    with the exception the [try] block raises for it: the transport fails
    (no connection, timeout), the body is not JSON, or the decoded document
    cannot be indexed with ["features"]. *)
Inductive other_failure : reply → exn → Prop :=
| transport_failure cls text :
    other_failure (TransportError cls text) (PyError cls text)
| malformed_body r text :
    200 ≤ status_code r ≤ 299 → content r = Malformed text →
    other_failure (Answer r) (PyError "JSONDecodeError" text)
| no_feature_list r doc e :
    200 ≤ status_code r ≤ 299 → content r = Json doc →
    getitem doc "features" = Raise e →
    other_failure (Answer r) e.

(** An optional text property: absent, [null], or a string; and the field
    of the result it gives. *)
Definition optional_text (o : option value) : Prop :=
  match o with
  | None | Some VNone | Some (VStr _) => True
  | Some _ => False
  end.

Definition text_of (o : option value) : option string :=
  match o with
  | Some (VStr s) => Some s
  | _ => None
  end.

(** A feature as the upstream documents it: an object with a [properties]
    mapping and a [geometry] whose [coordinates] are a list of floats. *)
Definition is_feature (f : value) : Prop :=
  ∃ d props g cs,
    f = VDict d ∧
    d !! "properties" = Some (VDict props) ∧
    d !! "geometry" = Some (VDict g) ∧
    g !! "coordinates" = Some (VList (VFloat <$> cs)) ∧
    optional_text (props !! "name") ∧
    optional_text (props !! "country").

(** An object that lacks one of the keys the projection subscripts. *)
Definition lacks_key (f : value) : Prop :=
  ∃ d, f = VDict d ∧
       (d !! "properties" = None ∨
        d !! "geometry" = None ∨
        ∃ g, d !! "geometry" = Some (VDict g) ∧ g !! "coordinates" = None).

(** The results of a handler mirror the features [fs]: any list it returns
    has one result per feature, each carrying the properties of its
    feature; and it does return when every element of [fs] is a feature. *)
Definition mirrors (fs : list value) (o : outcome (list PlaceResponse)) : Prop :=
  (∀ rs, o = Return rs →
     length rs = length fs ∧
     ∀ (i : nat) f r, fs !! i = Some f → rs !! i = Some r →
                      getitem f "properties" = Return (VDict (properties r))) ∧
  (Forall is_feature fs → ∃ rs, o = Return rs).

(** The exception left the handler as it was raised: it is none of the
    [HTTPException]s the upstream functions translate failures into. *)
Definition untranslated {A} (o : outcome A) : Prop :=
  ∃ cls text, o = Raise (PyError cls text).

(** *** Sample data *)

Definition plain_status_message (r : response) : string :=
  "HTTP status " +:+ pretty (status_code r).

Definition strict_str (v : value) : option string :=
  match v with VStr s => Some s | _ => None end.
Definition strict_int (v : value) : option Z :=
  match v with VInt n => Some n | _ => None end.
Definition strict_float (v : value) : option float :=
  match v with VFloat x => Some x | _ => None end.

(** The binary64 nearest to [m * 2^e]. *)
Definition dyadic (m e : Z) : float := binary_normalize 53 1024 m e false.

Definition lat_berlin : float := Eval vm_compute in dyadic 105 (-1).   (* 52.5 *)
Definition lon_berlin : float := Eval vm_compute in dyadic 215 (-4).   (* 13.4375 *)

(** An upstream that gives the same reply to every request. *)
Definition always (rep : reply) : upstream := λ _, rep.

Definition berlin_properties : gmap string value :=
  <["name" := VStr "Berlin"]> (<["country" := VStr "Germany"]>
    (<["osm_id" := VInt 62422]> ∅)).

Definition point : value := VList [VFloat lon_berlin; VFloat lat_berlin].

Definition berlin_object : gmap string value :=
  <["geometry" := VDict {["coordinates" := point]}]>
    (<["properties" := VDict berlin_properties]> ∅).
Definition berlin : value := VDict berlin_object.

(** A feature whose properties name neither the place nor the country. *)
Definition nameless_properties : gmap string value := {["osm_id" := VInt 1]}.
Definition nameless_object : gmap string value :=
  <["geometry" := VDict {["coordinates" := point]}]>
    (<["properties" := VDict nameless_properties]> ∅).
Definition nameless : value := VDict nameless_object.

(** An object without [properties]. *)
Definition bare_object : gmap string value :=
  {["geometry" := VDict {["coordinates" := point]}]}.
Definition bare : value := VDict bare_object.

Definition ok (features : list value) : reply :=
  Answer (Response 200 (Json (VDict {["features" := VList features]}))).

Definition unavailable : response := Response 503 (Malformed "Service Unavailable").

(** Upstreams that are down, that cannot be reached, that know two places,
    whose second feature has no properties, and that find nothing. *)
Definition service_down : upstream := always (Answer unavailable).
Definition unreachable : upstream :=
  always (TransportError "ConnectError" "connection refused").
Definition two_places : upstream := always (ok [berlin; nameless]).
Definition broken_feature : upstream := always (ok [berlin; bare]).
Definition no_match : upstream := always (ok []).

(** *** Informational endpoints *)

(** [root] and [health_check] return fixed documents and call nothing. *)
Definition root : IO value :=
  mret (VDict (<["message" := VStr "Geocoding API"]>
                (<["version" := VStr "1.0.0"]>
                  (<["endpoints" :=
                       VDict (<["search" := VStr "/search"]>
                               (<["search_with_location" := VStr "/search/location"]>
                                 (<["reverse_geocode" := VStr "/reverse"]> ∅)))]> ∅)))).

Definition health_check : IO value :=
  mret (VDict (<["status" := VStr "healthy"]> (<["service" := VStr "geocoding-api"]> ∅))).

(** *** Further vocabulary *)

(** A value [for ... in] cannot walk: neither a list, a string nor a dict. *)
Definition not_iterable (v : value) : Prop :=
  match v with
  | VList _ | VStr _ | VDict _ => False
  | _ => True
  end.

(** An optional field of a JSON body that is left out, or sent as [null]. *)
Definition left_out (field : option value) : Prop :=
  field = None ∨ field = Some VNone.

(** The three shapes of exception an upstream function can end with, for the
    reply [rep] it got: the status of a failed answer, or the generic 500. *)
Definition translated (rep : reply) (e : exn) : Prop :=
  (∃ r, non_2xx rep r ∧
        e = HTTPException (status_code r)
              ("Geocoding service error: " +:+ status_error_message r)) ∨
  (∃ text, e = HTTPException 500 ("Unexpected error: " +:+ text)).

(** More upstreams: one whose document holds [null] for the features, one
    whose first feature has no properties, and one that answers 404. *)
Definition null_features : upstream :=
  always (Answer (Response 200 (Json (VDict {["features" := VNone]})))).
Definition bare_first : upstream := always (ok [bare; berlin]).
Definition not_found : response := Response 404 (Json (VDict ∅)).
Definition upstream_404 : upstream := always (Answer not_found).

(** What the [except] clauses turn an exception of the [try] block into. *)
Definition handled (e : exn) : exn :=
  match e with
  | HTTPStatusError _ resp =>
      HTTPException (status_code resp) ("Geocoding service error: " +:+ str e)
  | _ => HTTPException 500 ("Unexpected error: " +:+ str e)
  end.

Definition guarded {A} (o : outcome A) : outcome A :=
  match o with
  | Return a => Return a
  | Raise e => Raise (handled e)
  end.

(** The document a reply decodes to: the first three lines of each [try]
    block, as a function of the reply. *)
Definition document_of (rep : reply) : outcome value :=
  match rep with
  | Answer r => _ ← raise_for_status r; json r
  | TransportError cls text => Raise (PyError cls text)
  end.

(** What the two search functions, and [reverse_geocode], make of the reply
    to their request. *)
Definition features_of (rep : reply) : outcome value :=
  guarded (doc ← document_of rep; getitem doc "features").

Definition properties_of (rep : reply) : outcome value :=
  guarded (doc ← document_of rep;
           features ← getitem doc "features";
           if negb (truthy features)
           then Raise (HTTPException 404 "No location found for the given coordinates")
           else first ← getitem0 features; getitem first "properties").

(** [search_handler_run up rep o]: [o] is the outcome of one of the four
    search handlers against the upstream [up], and [rep] is the reply [up]
    gives to the request of that handler. *)
Inductive search_handler_run (up : upstream)
  : reply → outcome (list PlaceResponse) → Prop :=
| run_search_places request :
    search_handler_run up
      (up (search_place_request (psr_query request) (psr_limit request) (psr_lang request)))
      (result (search_places request up))
| run_search_places_get q limit lang :
    search_handler_run up
      (up (search_place_request q limit lang))
      (result (search_places_get q limit lang up))
| run_search_with_location_priority request :
    search_handler_run up
      (up (search_with_location_request (lsr_query request) (lsr_lat request)
             (lsr_lon request)))
      (result (search_with_location_priority request up))
| run_search_with_location_priority_get q lat lon :
    search_handler_run up
      (up (search_with_location_request q lat lon))
      (result (search_with_location_priority_get q lat lon up)).

(** A feature whose [properties] is [null]. *)
Definition null_properties_object : gmap string value :=
  <["geometry" := VDict {["coordinates" := point]}]> (<["properties" := VNone]> ∅).

(** Request bodies and query strings. *)
Definition berlin_body : gmap string value :=
  <["query" := VStr "Berlin"]> (<["limit" := VNone]> ∅).
Definition berlin_location_body : gmap string value :=
  <["query" := VStr "Berlin"]>
    (<["lat" := VFloat lat_berlin]> (<["lon" := VFloat lon_berlin]> ∅)).
Definition lat_only : gmap string string := {["lat" := "52.5"]}.

(** ** Properties *)

Lemma is_success_true r : is_success r = true ↔ 200 ≤ status_code r ≤ 299.
Proof. unfold is_success. rewrite andb_true_iff, !Z.leb_le. done. Qed.

Lemma is_success_false r : is_success r = false ↔ ¬ (200 ≤ status_code r ≤ 299).
Proof. rewrite <- is_success_true. destruct (is_success r); naive_solver. Qed.

(** Subscripting and [.get] raise nothing but built-in errors. *)
Lemma getitem_raises obj key e :
  getitem obj key = Raise e → ∃ cls text, e = PyError cls text.
Proof.
  destruct obj; simpl; try (intros [= <-]; eauto).
  destruct (d !! key); intros [= <-]; eauto.
Qed.

Lemma getitem0_raises obj e :
  getitem0 obj = Raise e → ∃ cls text, e = PyError cls text.
Proof.
  destruct obj as [| | | |[]|[]|]; simpl; intros [= <-]; eauto.
Qed.

Lemma get_raises obj key e :
  get obj key = Raise e → ∃ cls text, e = PyError cls text.
Proof. destruct obj; simpl; intros [= <-]; eauto. Qed.

(** Unfolds the monadic plumbing of the upstream functions. *)
Ltac unfold_io :=
  unfold reverse_geocode_endpoint, reverse_geocode_endpoint_get;
  cbn [rgr_lat rgr_lon];
  unfold search_place, search_with_location, reverse_geocode;
  unfold search_place_request, search_with_location_request,
    reverse_geocode_request in *;
  unfold try_except, mbind, IO_bind, client_get, raise, lift;
  cbn beta iota.

(** Runs an upstream function against the reply [Hup] says it gets. *)
Ltac run_upstream Hup :=
  unfold_io; rewrite Hup; unfold raise_for_status, json;
  repeat match goal with
    | H : is_success _ = _ |- _ => rewrite H
    | H : content _ = _ |- _ => rewrite H
    | H : getitem _ _ = _ |- _ => rewrite H
    end;
  cbn.

(** *** The upstream functions on a successful call *)

Lemma search_place_succeeds q l g up features :
  succeeds_with (up (search_place_request q l g)) features →
  search_place q l g up = ([search_place_request q l g], Return features).
Proof.
  intros (r & d & Hup & Hs%is_success_true & Hc & Hf).
  run_upstream Hup. by rewrite Hf.
Qed.

Lemma search_with_location_succeeds q lat lon up features :
  succeeds_with (up (search_with_location_request q lat lon)) features →
  search_with_location q lat lon up =
    ([search_with_location_request q lat lon], Return features).
Proof.
  intros (r & d & Hup & Hs%is_success_true & Hc & Hf).
  run_upstream Hup. by rewrite Hf.
Qed.

(** *** Status errors and other failures *)

(** C5. Whichever of the three upstream functions is called, an upstream
    answer whose status lies outside 200..299 reaches the caller as an
    [HTTPException] with exactly that status code, and its detail is
    ["Geocoding service error: "] followed by the text of the upstream
    error. *)
Theorem upstream_status_is_propagated q l g lat lon up r :
  (non_2xx (up (search_place_request q l g)) r →
   result (search_place q l g up) =
     Raise (HTTPException (status_code r)
              ("Geocoding service error: " +:+ status_error_message r))) ∧
  (non_2xx (up (search_with_location_request q lat lon)) r →
   result (search_with_location q lat lon up) =
     Raise (HTTPException (status_code r)
              ("Geocoding service error: " +:+ status_error_message r))) ∧
  (non_2xx (up (reverse_geocode_request lat lon)) r →
   result (reverse_geocode lat lon up) =
     Raise (HTTPException (status_code r)
              ("Geocoding service error: " +:+ status_error_message r))).
Proof.
  repeat split; intros [Hup Hs%is_success_false]; by run_upstream Hup.
Qed.

(** C6. Whichever of the three upstream functions is called, a failure of
    the call that is not a status outside 200..299 (the transport fails,
    the body is not JSON, the document has no feature list) reaches the
    caller as an [HTTPException] with status 500 whose detail is
    ["Unexpected error: "] followed by the text of the exception. *)
Theorem other_failure_is_500 q l g lat lon up e :
  (other_failure (up (search_place_request q l g)) e →
   result (search_place q l g up) =
     Raise (HTTPException 500 ("Unexpected error: " +:+ str e))) ∧
  (other_failure (up (search_with_location_request q lat lon)) e →
   result (search_with_location q lat lon up) =
     Raise (HTTPException 500 ("Unexpected error: " +:+ str e))) ∧
  (other_failure (up (reverse_geocode_request lat lon)) e →
   result (reverse_geocode lat lon up) =
     Raise (HTTPException 500 ("Unexpected error: " +:+ str e))).
Proof.
  repeat split; intros Hfail;
    inversion Hfail as [cls text Hup | r text Hs%is_success_true Hc Hup
                       | r doc e' Hs%is_success_true Hc Hf Hup Heq];
    subst; symmetry in Hup; try (by run_upstream Hup);
    destruct (getitem_raises _ _ _ Hf) as (cls & text & ->);
    by run_upstream Hup.
Qed.

(** *** Reverse geocoding *)

(** The "not found" exception is raised inside the [try] block, where the
    clause [except Exception] catches it: the caller gets the 500 of the
    generic path. *)
Lemma reverse_geocode_falsy_features lat lon up features :
  succeeds_with (up (reverse_geocode_request lat lon)) features →
  truthy features = false →
  reverse_geocode lat lon up =
    ([reverse_geocode_request lat lon],
     Raise (HTTPException 500
              ("Unexpected error: " +:+
               str (HTTPException 404 "No location found for the given coordinates")))).
Proof.
  intros (r & d & Hup & Hs%is_success_true & Hc & Hf) Hfalsy.
  run_upstream Hup. rewrite Hf. cbn. by rewrite Hfalsy.
Qed.

(** C8. When the upstream call of a reverse-geocode request succeeds with
    a feature list that is not empty, the function and both handlers
    return the properties mapping of the first feature itself: not a list,
    not a [PlaceResponse]. *)
Theorem reverse_geocode_first_properties lat lon up f rest props :
  succeeds_with (up (reverse_geocode_request lat lon)) (VList (VDict f :: rest)) →
  f !! "properties" = Some (VDict props) →
  reverse_geocode lat lon up =
    ([reverse_geocode_request lat lon], Return (VDict props)) ∧
  reverse_geocode_endpoint {| rgr_lat := lat; rgr_lon := lon |} up =
    ([reverse_geocode_request lat lon], Return (VDict props)) ∧
  reverse_geocode_endpoint_get lat lon up =
    ([reverse_geocode_request lat lon], Return (VDict props)).
Proof.
  intros (r & d & Hup & Hs%is_success_true & Hc & Hf) Hprops.
  repeat split; run_upstream Hup; rewrite Hf; cbn; by rewrite Hprops.
Qed.

(** *** Query parameters *)

(** C4 (amended). Every place search sends one request, whose parameters
    hold [q] always, [limit] exactly when a limit other than 0 was
    supplied, [lang] exactly when a language other than the empty string
    was supplied, each with the caller's value, and nothing else. *)
Theorem search_place_query_parameters q limit lang up :
  calls (search_place q limit lang up) = [search_place_request q limit lang] ∧
  search_place_params q limit lang !! "q" = Some (VStr q) ∧
  (∀ v, search_place_params q limit lang !! "limit" = Some v ↔
        ∃ n, limit = Some n ∧ n ≠ 0 ∧ v = VInt n) ∧
  (∀ v, search_place_params q limit lang !! "lang" = Some v ↔
        ∃ s, lang = Some s ∧ s ≠ "" ∧ v = VStr s) ∧
  (∀ k, is_Some (search_place_params q limit lang !! k) →
        k = "q" ∨ k = "limit" ∨ k = "lang").
Proof.
  split.
  { unfold_io. destruct (up _) as [r|]; cbn; [|done].
    unfold raise_for_status. destruct (is_success r); cbn; [|done].
    unfold json. destruct (content r) as [doc|]; cbn; [|done].
    by destruct (getitem doc "features") as [|[]]. }
  unfold search_place_params.
  destruct limit as [n|], lang as [s|]; cbn;
    try (destruct (Z.eqb_spec n 0) as [->|]); try (destruct (String.eqb_spec s "") as [->|]);
    cbn; (split; [by simplify_map_eq|]);
    do 2 (split;
          [intros v; split;
           [intros ?; simplify_map_eq; eauto
           |intros (? & ? & ? & ?); by simplify_map_eq]|]);
    intros k [v Hk];
    destruct (decide (k = "q")), (decide (k = "limit")), (decide (k = "lang"));
    simplify_map_eq; eauto.
Qed.

(** C7. A location-biased search always sends [q], [lat] and [lon], each
    with the caller's value; and a request to either variant of the route
    that supplies no [lat] or no [lon] is refused with the binding error,
    no request having been sent upstream. *)
Theorem location_search_needs_lat_and_lon :
  (∀ q lat lon up,
     calls (search_with_location q lat lon up) = [search_with_location_request q lat lon] ∧
     search_with_location_params q lat lon !! "q" = Some (VStr q) ∧
     search_with_location_params q lat lon !! "lat" = Some (VFloat lat) ∧
     search_with_location_params q lat lon !! "lon" = Some (VFloat lon)) ∧
  (∀ qs up,
     qs !! "lat" = None ∨ qs !! "lon" = None →
     get_search_location qs up = ([], Raise RequestValidationError)) ∧
  (∀ doc up,
     body_field doc "lat" = None ∨ body_field doc "lon" = None →
     post_search_location doc up = ([], Raise RequestValidationError)).
Proof.
  split; [|split].
  - intros q lat lon up. split; [|done].
    unfold_io. destruct (up _) as [r|]; cbn; [|done].
    unfold raise_for_status. destruct (is_success r); cbn; [|done].
    unfold json. destruct (content r) as [doc|]; cbn; [|done].
    by destruct (getitem doc "features") as [|[]].
  - intros qs up Hmissing.
    unfold get_search_location, mbind, IO_bind, lift, required, query_field.
    destruct (_ ≫= validate_str); [|done].
    destruct Hmissing as [-> | ->]; cbn; [done|].
    by destruct (_ ≫= validate_float).
  - intros doc up Hmissing.
    unfold post_search_location, mbind, IO_bind, lift, required.
    destruct (_ ≫= validate_str); [|done].
    destruct Hmissing as [-> | ->]; cbn; [done|].
    by destruct (_ ≫= validate_float).
Qed.

(** *** The two variants of a route *)

(** C9. For each of the three operations the handler of the POST route
    and the handler of the GET route, given the same parameters and the
    same upstream, send the same requests and have the same outcome. *)
Theorem get_and_post_handlers_agree :
  (∀ q limit lang up,
     search_places {| psr_query := q; psr_limit := limit; psr_lang := lang |} up =
     search_places_get q limit lang up) ∧
  (∀ q lat lon up,
     search_with_location_priority {| lsr_query := q; lsr_lat := lat; lsr_lon := lon |} up =
     search_with_location_priority_get q lat lon up) ∧
  (∀ lat lon up,
     reverse_geocode_endpoint {| rgr_lat := lat; rgr_lon := lon |} up =
     reverse_geocode_endpoint_get lat lon up).
Proof. done. Qed.

(** *** Projection *)

Lemma validate_float_list_floats cs :
  validate_float_list (VList (VFloat <$> cs)) = Some cs.
Proof.
  cbn. apply mapM_Some. induction cs as [|c cs IH]; cbn; constructor; auto.
Qed.

Lemma validate_optional_text o :
  optional_text o →
  validate_optional validate_str (default VNone o) = Some (text_of o).
Proof.
  destruct o as [[]|]; cbn; try done. intros _. by rewrite validate_str_id.
Qed.

(** The projection of a well-formed feature. *)
Lemma project_well_formed d props g cs :
  d !! "properties" = Some (VDict props) →
  d !! "geometry" = Some (VDict g) →
  g !! "coordinates" = Some (VList (VFloat <$> cs)) →
  optional_text (props !! "name") →
  optional_text (props !! "country") →
  project (VDict d) =
    Return {| name := text_of (props !! "name");
              country := text_of (props !! "country");
              coordinates := cs;
              properties := props |}.
Proof.
  intros Hp Hg Hc Hname Hcountry. unfold project; cbn.
  rewrite Hp; cbn. rewrite Hg; cbn. rewrite Hc; cbn.
  unfold PlaceResponse_init.
  rewrite (validate_optional_text _ Hname), (validate_optional_text _ Hcountry).
  by rewrite validate_float_list_floats.
Qed.

(** C3. The projection of a feature reads [name] and [country] from its
    properties, giving [None] for a key that is absent (the result still
    has the field, and nothing is raised), takes the coordinates of its
    geometry as they are, and keeps the whole properties mapping. *)
Theorem project_feature d props g cs :
  d !! "properties" = Some (VDict props) →
  d !! "geometry" = Some (VDict g) →
  g !! "coordinates" = Some (VList (VFloat <$> cs)) →
  optional_text (props !! "name") →
  optional_text (props !! "country") →
  ∃ r, project (VDict d) = Return r ∧
       name r = text_of (props !! "name") ∧
       country r = text_of (props !! "country") ∧
       (props !! "name" = None → name r = None) ∧
       (props !! "country" = None → country r = None) ∧
       coordinates r = cs ∧
       properties r = props.
Proof.
  intros Hp Hg Hc Hname Hcountry. eexists. split.
  { by apply (project_well_formed d props g cs). }
  cbn. repeat split; by intros ->.
Qed.

(** A result carries the properties its feature was subscripted for. *)
Lemma project_properties f r :
  project f = Return r → getitem f "properties" = Return (VDict (properties r)).
Proof.
  unfold project.
  destruct (getitem f "properties") as [props|]; cbn; [|done].
  destruct (getitem f "geometry") as [geometry|]; cbn; [|done].
  destruct (getitem geometry "coordinates") as [coords|]; cbn; [|done].
  destruct props; cbn; try done. unfold PlaceResponse_init.
  destruct (validate_optional _ _); [|done].
  destruct (validate_optional _ _); [|done].
  destruct (validate_float_list _); [|done].
  cbn. by intros [= <-].
Qed.

(** Whatever the loop body raises is a built-in error or a validation
    error, never an [HTTPException]. *)
Lemma project_raises f e :
  project f = Raise e → ∃ cls text, e = PyError cls text.
Proof.
  unfold project.
  destruct (getitem f "properties") as [props|] eqn:Hp; cbn;
    [|intros [= <-]; by eapply getitem_raises].
  destruct (getitem f "geometry") as [geometry|] eqn:Hg; cbn;
    [|intros [= <-]; by eapply getitem_raises].
  destruct (getitem geometry "coordinates") as [coords|] eqn:Hc; cbn;
    [|intros [= <-]; by eapply getitem_raises].
  destruct props; cbn; try (intros [= <-]; eauto).
  unfold PlaceResponse_init.
  repeat (destruct (validate_optional _ _); [|intros [= <-]; eauto]).
  destruct (validate_float_list _); [|intros [= <-]; eauto].
  done.
Qed.

Lemma project_lacks_key f :
  lacks_key f → ∃ key, project f = Raise (PyError "KeyError" key).
Proof.
  intros (d & -> & Hmissing). unfold project; cbn.
  destruct Hmissing as [-> | Hmissing]; [by eauto|].
  destruct (d !! "properties") as [props|]; cbn; [|by eauto].
  destruct Hmissing as [-> | (g & -> & Hc)]; cbn; [by eauto|].
  rewrite Hc. by eauto.
Qed.

Lemma project_is_feature f : is_feature f → ∃ r, project f = Return r.
Proof.
  intros (d & props & g & cs & -> & Hp & Hg & Hc & Hname & Hcountry).
  eexists. by apply (project_well_formed d props g cs).
Qed.

(** The loop appends one projected result per feature, in order. *)
Lemma for_features_returns fs acc rs :
  for_features fs acc = Return rs →
  ∃ rs', rs = acc ++ rs' ∧ Forall2 (λ f r, project f = Return r) fs rs'.
Proof.
  revert acc. induction fs as [|f fs IH]; intros acc; cbn.
  - intros [= <-]. exists []. by rewrite app_nil_r.
  - destruct (project f) as [r|] eqn:Hf; cbn; [|done].
    intros (rs' & -> & Hrs')%IH. exists (r :: rs').
    split; [by rewrite <- app_assoc | by constructor].
Qed.

Lemma for_features_raises fs acc e :
  for_features fs acc = Raise e → ∃ cls text, e = PyError cls text.
Proof.
  revert acc. induction fs as [|f fs IH]; intros acc; cbn; [done|].
  destruct (project f) as [r|] eqn:Hf; cbn; [by apply IH|].
  intros [= <-]. by eapply project_raises.
Qed.

Lemma for_features_total fs acc :
  Forall is_feature fs → ∃ rs, for_features fs acc = Return rs.
Proof.
  intros Hfs. revert acc. induction Hfs as [|f fs Hf _ IH]; intros acc; cbn.
  - by eexists.
  - destruct (project_is_feature f Hf) as [r ->]; cbn. apply IH.
Qed.

Lemma for_features_fails fs acc :
  Exists lacks_key fs → ∃ e, for_features fs acc = Raise e.
Proof.
  intros Hfs. revert acc. induction Hfs as [f fs Hf | f fs _ IH]; intros acc; cbn.
  - destruct (project_lacks_key f Hf) as [key ->]; cbn. by eexists.
  - destruct (project f); cbn; [apply IH | by eexists].
Qed.

Lemma for_features_mirrors fs : mirrors fs (for_features fs []).
Proof.
  split; [|apply for_features_total].
  intros rs (rs' & -> & Hrs)%for_features_returns; cbn. split.
  - symmetry. by eapply Forall2_length.
  - intros i f r Hf Hr. apply project_properties.
    by apply (Forall2_lookup_lr _ fs rs' i f r Hrs).
Qed.

Lemma for_features_untranslated fs :
  Exists lacks_key fs → untranslated (for_features fs []).
Proof.
  intros [e He]%(for_features_fails _ []). rewrite He.
  destruct (for_features_raises _ _ _ He) as (cls & text & ->).
  by exists cls, text.
Qed.

(** On a feature list, a search handler is the loop over the list; the
    loop runs after the upstream function has returned, outside its [try]
    block. *)
Lemma search_places_loop request up fs :
  succeeds_with
    (up (search_place_request (psr_query request) (psr_limit request) (psr_lang request)))
    (VList fs) →
  result (search_places request up) = for_features fs [].
Proof.
  intros Hup. unfold search_places, mbind at 1 2, IO_bind.
  rewrite (search_place_succeeds _ _ _ _ _ Hup). cbn.
  by destruct (for_features fs []).
Qed.

Lemma search_places_get_loop q l g up fs :
  succeeds_with (up (search_place_request q l g)) (VList fs) →
  result (search_places_get q l g up) = for_features fs [].
Proof.
  intros Hup. unfold search_places_get, mbind at 1 2, IO_bind.
  rewrite (search_place_succeeds _ _ _ _ _ Hup). cbn.
  by destruct (for_features fs []).
Qed.

Lemma search_with_location_priority_loop request up fs :
  succeeds_with
    (up (search_with_location_request (lsr_query request) (lsr_lat request)
           (lsr_lon request)))
    (VList fs) →
  result (search_with_location_priority request up) = for_features fs [].
Proof.
  intros Hup. unfold search_with_location_priority, mbind at 1 2, IO_bind.
  rewrite (search_with_location_succeeds _ _ _ _ _ Hup). cbn.
  by destruct (for_features fs []).
Qed.

Lemma search_with_location_priority_get_loop q lat lon up fs :
  succeeds_with (up (search_with_location_request q lat lon)) (VList fs) →
  result (search_with_location_priority_get q lat lon up) = for_features fs [].
Proof.
  intros Hup. unfold search_with_location_priority_get, mbind at 1 2, IO_bind.
  rewrite (search_with_location_succeeds _ _ _ _ _ Hup). cbn.
  by destruct (for_features fs []).
Qed.

(** C2. When the upstream call of a search request succeeds with the
    feature list [fs], each of the four search handlers returns a list
    with as many results as [fs] has features, and the properties of the
    i-th result are the properties mapping of the i-th feature. *)
Theorem search_results_mirror_features q limit lang lat lon up fs :
  (succeeds_with (up (search_place_request q limit lang)) (VList fs) →
   mirrors fs (result (search_places
                         {| psr_query := q; psr_limit := limit; psr_lang := lang |} up)) ∧
   mirrors fs (result (search_places_get q limit lang up))) ∧
  (succeeds_with (up (search_with_location_request q lat lon)) (VList fs) →
   mirrors fs (result (search_with_location_priority
                         {| lsr_query := q; lsr_lat := lat; lsr_lon := lon |} up)) ∧
   mirrors fs (result (search_with_location_priority_get q lat lon up))).
Proof.
  split; intros Hup.
  - rewrite (search_places_loop (Build_PlaceSearchRequest q limit lang) up fs Hup),
      (search_places_get_loop q limit lang up fs Hup).
    split; apply for_features_mirrors.
  - rewrite (search_with_location_priority_loop (Build_LocationSearchRequest q lat lon)
               up fs Hup),
      (search_with_location_priority_get_loop q lat lon up fs Hup).
    split; apply for_features_mirrors.
Qed.

(** An untranslated exception is answered with the bare server error. *)
Lemma untranslated_response {A} (o : outcome A) :
  untranslated o → response_status o = 500 ∧ response_detail o = None.
Proof. by intros (cls & text & ->). Qed.

(** C10. When the upstream call of a search request succeeds and one of
    the features lacks [properties], [geometry] or the [coordinates] of
    its geometry, each of the four search handlers ends with an exception
    that is not an [HTTPException]: the subscripts are evaluated after the
    upstream function has returned, so the caller gets the bare server
    error and no ["Unexpected error: ..."] detail. *)
Theorem missing_key_is_not_translated q limit lang lat lon up fs :
  Exists lacks_key fs →
  (succeeds_with (up (search_place_request q limit lang)) (VList fs) →
   untranslated (result (search_places
                           {| psr_query := q; psr_limit := limit; psr_lang := lang |} up)) ∧
   untranslated (result (search_places_get q limit lang up))) ∧
  (succeeds_with (up (search_with_location_request q lat lon)) (VList fs) →
   untranslated (result (search_with_location_priority
                           {| lsr_query := q; lsr_lat := lat; lsr_lon := lon |} up)) ∧
   untranslated (result (search_with_location_priority_get q lat lon up))).
Proof.
  intros (cls & text & Hfs)%for_features_untranslated.
  split; intros Hup.
  - rewrite (search_places_loop (Build_PlaceSearchRequest q limit lang) up fs Hup),
      (search_places_get_loop q limit lang up fs Hup).
    rewrite Hfs. split; by exists cls, text.
  - rewrite (search_with_location_priority_loop (Build_LocationSearchRequest q lat lon)
               up fs Hup),
      (search_with_location_priority_get_loop q lat lon up fs Hup).
    rewrite Hfs. split; by exists cls, text.
Qed.

(** *** Binding of a JSON body *)

Lemma post_search_binds d q n s up :
  d !! "query" = Some (VStr q) →
  d !! "limit" = Some (VInt n) →
  d !! "lang" = Some (VStr s) →
  post_search (VDict d) up =
    search_places {| psr_query := q; psr_limit := Some n; psr_lang := Some s |} up.
Proof.
  intros Hq Hn Hs. unfold post_search, mbind at 1 2 3, IO_bind, lift.
  unfold required, optional; cbn. rewrite Hq, Hn, Hs; cbn.
  rewrite validate_str_id, validate_int_id, validate_str_id; cbn.
  by destruct (search_places _ up).
Qed.

(** ** Further properties of the program *)

(** *** One request per call *)

Lemma search_place_calls q l g up :
  calls (search_place q l g up) = [search_place_request q l g].
Proof.
  unfold_io. destruct (up _) as [r|]; cbn; [|done].
  unfold raise_for_status. destruct (is_success r); cbn; [|done].
  unfold json. destruct (content r) as [doc|]; cbn; [|done].
  by destruct (getitem doc "features") as [|[]].
Qed.

Lemma search_with_location_calls q lat lon up :
  calls (search_with_location q lat lon up) = [search_with_location_request q lat lon].
Proof.
  unfold_io. destruct (up _) as [r|]; cbn; [|done].
  unfold raise_for_status. destruct (is_success r); cbn; [|done].
  unfold json. destruct (content r) as [doc|]; cbn; [|done].
  by destruct (getitem doc "features") as [|[]].
Qed.

Lemma reverse_geocode_calls lat lon up :
  calls (reverse_geocode lat lon up) = [reverse_geocode_request lat lon].
Proof.
  unfold_io. destruct (up _) as [r|]; cbn; [|done].
  unfold raise_for_status. destruct (is_success r); cbn; [|done].
  unfold json. destruct (content r) as [doc|]; cbn; [|done].
  destruct (getitem doc "features") as [features|[]]; cbn; try done.
  destruct (truthy features); cbn; [|done].
  destruct (getitem0 features) as [first|[]]; cbn; try done.
  by destruct (getitem first "properties") as [|[]].
Qed.

(** A search handler is its upstream function followed by the loop, which
    sends nothing. *)
Lemma search_handler_eval (f : IO value) up :
  (features ← f; items ← lift (iterate features); lift (for_features items [])) up =
    (calls (f up),
     features ← result (f up); items ← iterate features; for_features items []).
Proof.
  unfold mbind at 1 2, IO_bind, lift, calls, result.
  destruct (f up) as [sent [v|e]]; cbn; [|done].
  destruct (iterate v) as [items|]; cbn; by rewrite ?app_nil_r.
Qed.

(** *** The upstream functions as functions of the reply *)

Lemma search_place_eval q l g up :
  search_place q l g up =
    ([search_place_request q l g], features_of (up (search_place_request q l g))).
Proof.
  unfold features_of, document_of. unfold_io.
  destruct (up _) as [r|]; cbn; [|done].
  unfold raise_for_status. destruct (is_success r); cbn; [|done].
  unfold json. destruct (content r) as [doc|]; cbn; [|done].
  by destruct (getitem doc "features") as [|[]].
Qed.

Lemma search_with_location_eval q lat lon up :
  search_with_location q lat lon up =
    ([search_with_location_request q lat lon],
     features_of (up (search_with_location_request q lat lon))).
Proof.
  unfold features_of, document_of. unfold_io.
  destruct (up _) as [r|]; cbn; [|done].
  unfold raise_for_status. destruct (is_success r); cbn; [|done].
  unfold json. destruct (content r) as [doc|]; cbn; [|done].
  by destruct (getitem doc "features") as [|[]].
Qed.

Lemma reverse_geocode_eval lat lon up :
  reverse_geocode lat lon up =
    ([reverse_geocode_request lat lon], properties_of (up (reverse_geocode_request lat lon))).
Proof.
  unfold properties_of, document_of. unfold_io.
  destruct (up _) as [r|]; cbn; [|done].
  unfold raise_for_status. destruct (is_success r); cbn; [|done].
  unfold json. destruct (content r) as [doc|]; cbn; [|done].
  destruct (getitem doc "features") as [features|[]]; cbn; try done.
  destruct (truthy features); cbn; [|done].
  destruct (getitem0 features) as [first|[]]; cbn; try done.
  by destruct (getitem first "properties") as [|[]].
Qed.

Lemma search_handler_run_eval up rep o :
  search_handler_run up rep o →
  o = (features ← features_of rep; items ← iterate features; for_features items []).
Proof.
  intros [request | q l g | request | q lat lon];
    unfold search_places, search_places_get, search_with_location_priority,
      search_with_location_priority_get;
    rewrite search_handler_eval;
    by rewrite ?search_place_eval, ?search_with_location_eval.
Qed.

Lemma getitem_returns obj key v :
  getitem obj key = Return v ↔ ∃ d, obj = VDict d ∧ d !! key = Some v.
Proof.
  split.
  - destruct obj; cbn; try done. destruct (d !! key) eqn:Hd; [|done].
    intros [= <-]. eauto.
  - intros (d & -> & Hd). cbn. by rewrite Hd.
Qed.

Lemma document_of_returns rep doc :
  document_of rep = Return doc ↔
  ∃ r, rep = Answer r ∧ 200 ≤ status_code r ≤ 299 ∧ content r = Json doc.
Proof.
  split.
  - destruct rep as [r|]; cbn; [|done]. unfold raise_for_status.
    destruct (is_success r) eqn:Hs; cbn; [|done]. unfold json.
    destruct (content r) eqn:Hc; [|done]. intros [= <-].
    exists r. by rewrite <- is_success_true.
  - intros (r & -> & Hs%is_success_true & Hc); cbn.
    unfold raise_for_status, json. by rewrite Hs, Hc.
Qed.

Lemma document_of_raises rep e :
  document_of rep = Raise e →
  (∃ r, non_2xx rep r ∧ e = HTTPStatusError (status_error_message r) r) ∨
  (∃ cls text, e = PyError cls text).
Proof.
  destruct rep as [r|]; cbn; [|intros [= <-]; eauto].
  unfold raise_for_status. destruct (is_success r) eqn:Hs; cbn.
  - unfold json. destruct (content r); [done|]. intros [= <-]; eauto.
  - intros [= <-]. left. exists r. split; [|done]. split; [done|].
    by apply is_success_false.
Qed.

Lemma features_of_returns rep v :
  features_of rep = Return v ↔ succeeds_with rep v.
Proof.
  unfold features_of, succeeds_with. split.
  - destruct (document_of rep) as [doc|] eqn:Hdoc; cbn; [|done].
    destruct (getitem doc "features") as [v'|] eqn:Hf; cbn; [|done].
    intros [= <-]. apply document_of_returns in Hdoc as (r & -> & Hs & Hc).
    apply getitem_returns in Hf as (d & -> & Hf). eauto 10.
  - intros (r & d & -> & Hs & Hc & Hf).
    assert (document_of (Answer r) = Return (VDict d)) as ->
      by (apply document_of_returns; eauto).
    cbn. by rewrite Hf.
Qed.

(** *** Requests sent *)

(** X1. Whatever the upstream does, each of the six handlers sends exactly
    one request, the one its parameters determine: nothing is retried after
    a failure, and the loop over the features sends nothing. *)
Theorem handlers_send_one_request :
  (∀ request up,
     calls (search_places request up) =
       [search_place_request (psr_query request) (psr_limit request) (psr_lang request)]) ∧
  (∀ q limit lang up,
     calls (search_places_get q limit lang up) = [search_place_request q limit lang]) ∧
  (∀ request up,
     calls (search_with_location_priority request up) =
       [search_with_location_request (lsr_query request) (lsr_lat request)
          (lsr_lon request)]) ∧
  (∀ q lat lon up,
     calls (search_with_location_priority_get q lat lon up) =
       [search_with_location_request q lat lon]) ∧
  (∀ request up,
     calls (reverse_geocode_endpoint request up) =
       [reverse_geocode_request (rgr_lat request) (rgr_lon request)]) ∧
  (∀ lat lon up,
     calls (reverse_geocode_endpoint_get lat lon up) = [reverse_geocode_request lat lon]).
Proof.
  repeat split; intros;
    unfold search_places, search_places_get, search_with_location_priority,
      search_with_location_priority_get, reverse_geocode_endpoint,
      reverse_geocode_endpoint_get;
    rewrite ?search_handler_eval; cbn [calls fst];
    first [apply search_place_calls | apply search_with_location_calls
          | apply reverse_geocode_calls].
Qed.


(** *** Outcomes of the upstream functions *)

(** X3. An exception that leaves one of the three upstream functions is
    always an [HTTPException]: either with the status of an upstream answer
    outside 200..299, or with status 500 and an ["Unexpected error: "]
    detail. In particular [reverse_geocode] ends with status 404 only when
    the upstream itself answered 404. *)
Theorem upstream_functions_raise_translated q l g lat lon up e :
  (result (search_place q l g up) = Raise e →
   translated (up (search_place_request q l g)) e) ∧
  (result (search_with_location q lat lon up) = Raise e →
   translated (up (search_with_location_request q lat lon)) e) ∧
  (result (reverse_geocode lat lon up) = Raise e →
   translated (up (reverse_geocode_request lat lon)) e).
Proof.
  assert (Hdoc : ∀ rep e0, document_of rep = Raise e0 → translated rep (handled e0)).
  { intros rep e0 [(r & Hr & ->) | (cls & text & ->)]%document_of_raises; cbn.
    - left. by exists r.
    - right. by eexists. }
  rewrite search_place_eval, search_with_location_eval, reverse_geocode_eval.
  unfold features_of, properties_of, result; cbn [snd].
  repeat split.
  - destruct (document_of _) as [doc|e0] eqn:Hd; cbn; [|intros [= <-]; by apply Hdoc].
    destruct (getitem doc "features") as [|e0] eqn:Hf; cbn; [done|].
    destruct (getitem_raises _ _ _ Hf) as (cls & text & ->).
    intros [= <-]. right. by eexists.
  - destruct (document_of _) as [doc|e0] eqn:Hd; cbn; [|intros [= <-]; by apply Hdoc].
    destruct (getitem doc "features") as [|e0] eqn:Hf; cbn; [done|].
    destruct (getitem_raises _ _ _ Hf) as (cls & text & ->).
    intros [= <-]. right. by eexists.
  - destruct (document_of _) as [doc|e0] eqn:Hd; cbn; [|intros [= <-]; by apply Hdoc].
    destruct (getitem doc "features") as [features|e0] eqn:Hf; cbn.
    2:{ destruct (getitem_raises _ _ _ Hf) as (cls & text & ->).
        intros [= <-]. right. by eexists. }
    destruct (truthy features); cbn; [|intros [= <-]; right; by eexists].
    destruct (getitem0 features) as [first|e0] eqn:H0; cbn.
    2:{ destruct (getitem0_raises _ _ H0) as (cls & text & ->).
        intros [= <-]. right. by eexists. }
    destruct (getitem first "properties") as [|e0] eqn:Hp; cbn; [done|].
    destruct (getitem_raises _ _ _ Hp) as (cls & text & ->).
    intros [= <-]. right. by eexists.
Qed.

(** X4. The two search functions return a value exactly when the upstream
    answered with a status in 200..299 and a JSON object that has the key
    ["features"], and they return what is stored under that key, whatever it
    is. [reverse_geocode] returns exactly when, in addition, that value is
    truthy, has a first element, and the first element is an object with the
    key ["properties"]; it returns what is stored under that key. *)
Theorem upstream_functions_return_iff q l g lat lon up v :
  (result (search_place q l g up) = Return v ↔
   succeeds_with (up (search_place_request q l g)) v) ∧
  (result (search_with_location q lat lon up) = Return v ↔
   succeeds_with (up (search_with_location_request q lat lon)) v) ∧
  (result (reverse_geocode lat lon up) = Return v ↔
   ∃ features first,
     succeeds_with (up (reverse_geocode_request lat lon)) features ∧
     truthy features = true ∧
     getitem0 features = Return first ∧
     getitem first "properties" = Return v).
Proof.
  rewrite search_place_eval, search_with_location_eval, reverse_geocode_eval.
  unfold result; cbn [snd].
  split; [apply features_of_returns|]. split; [apply features_of_returns|].
  unfold properties_of. split.
  - destruct (document_of _) as [doc|] eqn:Hd; cbn; [|done].
    destruct (getitem doc "features") as [features|] eqn:Hf; cbn; [|done].
    destruct (truthy features) eqn:Ht; cbn; [|done].
    destruct (getitem0 features) as [first|] eqn:H0; cbn; [|done].
    destruct (getitem first "properties") as [v'|] eqn:Hp; cbn; [|done].
    intros [= <-]. exists features, first. repeat split; try done.
    apply features_of_returns. unfold features_of. by rewrite Hd; cbn; rewrite Hf.
  - intros (features & first & Hs%features_of_returns & Ht & H0 & Hp).
    unfold features_of in Hs.
    destruct (document_of _) as [doc|]; cbn in *; [|done].
    destruct (getitem doc "features") as [features'|]; cbn in *; [|done].
    injection Hs as ->. by rewrite Ht; cbn; rewrite H0; cbn; rewrite Hp.
Qed.

(** X5. In [reverse_geocode] the subscripts are inside the [try] block: when
    the first feature is an object without [properties], the caller gets the
    structured status 500 whose detail names the missing key. *)
Theorem reverse_geocode_missing_properties lat lon up f rest :
  succeeds_with (up (reverse_geocode_request lat lon)) (VList (VDict f :: rest)) →
  f !! "properties" = None →
  result (reverse_geocode lat lon up) =
    Raise (HTTPException 500 "Unexpected error: 'properties'").
Proof.
  intros Hs%features_of_returns Hp. rewrite reverse_geocode_eval.
  unfold result; cbn [snd]. unfold properties_of. unfold features_of in Hs.
  destruct (document_of _) as [doc|]; cbn in *; [|done].
  destruct (getitem doc "features") as [features'|]; cbn in *; [|done].
  injection Hs as ->. cbn. by rewrite Hp.
Qed.

(** *** Outcomes of the search handlers *)

Lemma search_handler_run_success up rep o features :
  search_handler_run up rep o → succeeds_with rep features →
  o = (items ← iterate features; for_features items []).
Proof.
  intros -> %search_handler_run_eval Hs%features_of_returns. by rewrite Hs.
Qed.

Lemma for_features_complete fs acc rs :
  Forall2 (λ f r, project f = Return r) fs rs →
  for_features fs acc = Return (acc ++ rs).
Proof.
  intros Hrs. revert acc. induction Hrs as [|f r fs rs Hf _ IH]; intros acc; cbn.
  - by rewrite app_nil_r.
  - rewrite Hf; cbn. by rewrite IH, <- app_assoc.
Qed.

Lemma for_features_first_failure good f rest acc e :
  Forall (λ g, ∃ r, project g = Return r) good →
  project f = Raise e →
  for_features (good ++ f :: rest) acc = Raise e.
Proof.
  intros Hgood Hf. revert acc.
  induction Hgood as [|g good [r Hg] _ IH]; intros acc; cbn.
  - by rewrite Hf.
  - rewrite Hg; cbn. apply IH.
Qed.

(** X6. At the routes too, a failed upstream call is answered with the
    translated error: each of the four search handlers passes on the
    [HTTPException] of its upstream function (the upstream status for an
    answer outside 200..299, else 500) and runs no projection. *)
Theorem search_handlers_pass_on_failure up rep o :
  search_handler_run up rep o →
  (∀ r, non_2xx rep r →
        o = Raise (HTTPException (status_code r)
                     ("Geocoding service error: " +:+ status_error_message r))) ∧
  (∀ e, other_failure rep e →
        o = Raise (HTTPException 500 ("Unexpected error: " +:+ str e))).
Proof.
  intros -> %search_handler_run_eval. unfold features_of. split.
  - intros r [-> Hs%is_success_false]; cbn. unfold raise_for_status. by rewrite Hs.
  - intros e Hfail.
    inversion Hfail as [cls text | r text Hs%is_success_true Hc
                       | r doc e' Hs%is_success_true Hc Hf]; subst; cbn;
      unfold raise_for_status, json; rewrite ?Hs, ?Hc; cbn; [done..|].
    rewrite Hf. by destruct (getitem_raises _ _ _ Hf) as (cls & text & ->).
Qed.

(** X7. When the upstream call succeeds with the feature list [fs], a search
    handler returns the list [rs] exactly when [rs] holds, in the order of
    [fs], the projection of every feature: no feature is skipped, reordered
    or added. *)
Theorem search_handlers_return_projections up rep o fs rs :
  search_handler_run up rep o →
  succeeds_with rep (VList fs) →
  o = Return rs ↔ Forall2 (λ f r, project f = Return r) fs rs.
Proof.
  intros Hrun Hs. rewrite (search_handler_run_success _ _ _ _ Hrun Hs); cbn. split.
  - by intros (rs' & -> & Hrs)%for_features_returns.
  - intros Hrs. by rewrite (for_features_complete _ [] _ Hrs).
Qed.

(** X8. An empty feature list is no error for a search: the handler returns
    the empty list. *)
Theorem search_handlers_empty_list up rep o :
  search_handler_run up rep o →
  succeeds_with rep (VList []) →
  o = Return [] ∧ response_status o = 200.
Proof.
  intros Hrun Hs. by rewrite (search_handler_run_success _ _ _ _ Hrun Hs).
Qed.

(** X9. No partial results: when the projection of a feature raises and
    every feature before it projects, the handler ends with that exception
    and returns none of the results it had collected. *)
Theorem search_handlers_first_failure up rep o good f rest e :
  search_handler_run up rep o →
  succeeds_with rep (VList (good ++ f :: rest)) →
  Forall (λ g, ∃ r, project g = Return r) good →
  project f = Raise e →
  o = Raise e.
Proof.
  intros Hrun Hs Hgood Hf. rewrite (search_handler_run_success _ _ _ _ Hrun Hs); cbn.
  by apply for_features_first_failure.
Qed.

(** X10. The value under ["features"] is iterated without a check of its
    type: when it is [null], a number or a boolean, the handler ends with
    the [TypeError] of the [for] statement, outside the [try] block and so
    untranslated. *)
Theorem search_handlers_features_not_iterable up rep o features :
  search_handler_run up rep o →
  succeeds_with rep features →
  not_iterable features →
  o = Raise (PyError "TypeError"
               ("'" +:+ type_name features +:+ "' object is not iterable")).
Proof.
  intros Hrun Hs Hni. rewrite (search_handler_run_success _ _ _ _ Hrun Hs).
  by destruct features.
Qed.

(** *** Errors of the projection *)

(** X11. The projection subscripts [properties] first, then [geometry],
    then the [coordinates] of the geometry, and the first key that is
    missing is the one the [KeyError] names. *)
Theorem project_names_first_missing_key d :
  (d !! "properties" = None →
   project (VDict d) = Raise (PyError "KeyError" "'properties'")) ∧
  (is_Some (d !! "properties") → d !! "geometry" = None →
   project (VDict d) = Raise (PyError "KeyError" "'geometry'")) ∧
  (∀ g, is_Some (d !! "properties") → d !! "geometry" = Some (VDict g) →
        g !! "coordinates" = None →
        project (VDict d) = Raise (PyError "KeyError" "'coordinates'")).
Proof.
  unfold project; cbn. repeat split.
  - by intros ->.
  - by intros [props ->] ->.
  - intros g [props ->] -> Hc; cbn. by rewrite Hc.
Qed.

(** X12. A feature whose [properties] is not an object ([null], a list, a
    string, ...) passes the subscripts and fails at [props.get] with an
    [AttributeError]. *)
Theorem project_properties_not_object d props g coords :
  d !! "properties" = Some props →
  (∀ m, props ≠ VDict m) →
  d !! "geometry" = Some (VDict g) →
  g !! "coordinates" = Some coords →
  project (VDict d) =
    Raise (PyError "AttributeError"
             ("'" +:+ type_name props +:+ "' object has no attribute 'get'")).
Proof.
  intros Hp Hnd Hg Hc. unfold project; cbn. rewrite Hp; cbn. rewrite Hg; cbn.
  rewrite Hc; cbn. destruct props; try done. by destruct (Hnd d0).
Qed.

(** *** Request binding *)

(** X13. Every route refuses a request that lacks one of its required
    parameters ([query] for the two searches, [lat] and [lon] for reverse
    geocoding), in the query string as in the JSON body, and a body that is
    not an object; the handler is not run and nothing is sent upstream. *)
Theorem missing_required_parameter_is_refused up :
  (∀ qs, qs !! "query" = None →
         get_search qs up = ([], Raise RequestValidationError) ∧
         get_search_location qs up = ([], Raise RequestValidationError)) ∧
  (∀ doc, body_field doc "query" = None →
          post_search doc up = ([], Raise RequestValidationError) ∧
          post_search_location doc up = ([], Raise RequestValidationError)) ∧
  (∀ qs, qs !! "lat" = None ∨ qs !! "lon" = None →
         get_reverse qs up = ([], Raise RequestValidationError)) ∧
  (∀ doc, body_field doc "lat" = None ∨ body_field doc "lon" = None →
          post_reverse doc up = ([], Raise RequestValidationError)) ∧
  (∀ doc, (∀ d, doc ≠ VDict d) →
          post_search doc up = ([], Raise RequestValidationError) ∧
          post_search_location doc up = ([], Raise RequestValidationError) ∧
          post_reverse doc up = ([], Raise RequestValidationError)).
Proof.
  assert (Hbody : ∀ doc key, (∀ d, doc ≠ VDict d) → body_field doc key = None).
  { intros [] key Hd; try done. by destruct (Hd d). }
  assert (Hfloat : ∀ (field : option value) (k : float → IO value),
            (x ← lift (required validate_float field); k x) up =
              ([], Raise RequestValidationError) ∨
            ∃ x, (x ← lift (required validate_float field); k x) up = k x up).
  { intros field k. unfold required.
    destruct (field ≫= validate_float) as [x|]; [right; exists x|left];
      unfold mbind, IO_bind, lift; [by destruct (k x up)|done]. }
  split; [|split; [|split; [|split]]].
  - intros qs Hq.
    unfold get_search, get_search_location, mbind at 1 4, IO_bind, lift, required,
      query_field.
    by rewrite Hq.
  - intros doc Hq.
    unfold post_search, post_search_location, mbind at 1 4, IO_bind, lift, required.
    by rewrite Hq.
  - intros qs Hmissing. unfold get_reverse, query_field.
    destruct Hmissing as [Hlat | Hlon].
    + unfold mbind at 1, IO_bind, lift, required. by rewrite Hlat.
    + destruct (Hfloat (VStr <$> qs !! "lat")
                  (λ lat, lon ← lift (required validate_float (VStr <$> qs !! "lon"));
                          reverse_geocode_endpoint_get lat lon))
        as [-> | [lat ->]]; [done|].
      unfold mbind at 1, IO_bind, lift, required. by rewrite Hlon.
  - intros doc Hmissing. unfold post_reverse.
    destruct Hmissing as [Hlat | Hlon].
    + unfold mbind at 1, IO_bind, lift, required. by rewrite Hlat.
    + destruct (Hfloat (body_field doc "lat")
                  (λ lat, lon ← lift (required validate_float (body_field doc "lon"));
                          reverse_geocode_endpoint {| rgr_lat := lat; rgr_lon := lon |}))
        as [-> | [lat ->]]; [done|].
      unfold mbind at 1, IO_bind, lift, required. by rewrite Hlon.
  - intros doc Hdoc.
    unfold post_search, post_search_location, post_reverse, mbind at 1 4 7, IO_bind,
      lift, required.
    by rewrite !Hbody.
Qed.

Lemma bind_lift_return {A B} (a : A) (k : A → IO B) up :
  (x ← lift (Return a); k x) up = k a up.
Proof. unfold mbind, IO_bind, lift. by destruct (k a up). Qed.

(** X14. An optional parameter of a place search that is left out binds to
    [None]; in a JSON body [null] counts as left out. The upstream request
    then carries [q] alone. *)
Theorem optional_parameters_default_to_none q up :
  (∀ d, d !! "query" = Some (VStr q) →
        left_out (d !! "limit") → left_out (d !! "lang") →
        post_search (VDict d) up =
          search_places {| psr_query := q; psr_limit := None; psr_lang := None |} up) ∧
  (∀ qs, qs !! "query" = Some q → qs !! "limit" = None → qs !! "lang" = None →
         get_search qs up = search_places_get q None None up) ∧
  search_place_params q None None = {["q" := VStr q]}.
Proof.
  split; [|split; [|done]].
  - intros d Hq Hlimit Hlang. unfold post_search, required, optional; cbn.
    rewrite Hq; cbn. rewrite validate_str_id, bind_lift_return.
    assert (∀ T (validate : value → option T) field,
              left_out field →
              match field with
              | Some v => match validate_optional validate v with
                          | Some o => Return o
                          | None => Raise RequestValidationError
                          end
              | None => Return None
              end = Return None) as Hout.
    { by intros T validate field [-> | ->]. }
    by rewrite !Hout, !bind_lift_return.
  - intros qs Hq Hlimit Hlang. unfold get_search, required, optional, query_field.
    rewrite Hq, Hlimit, Hlang; cbn. by rewrite validate_str_id, !bind_lift_return.
Qed.

(** X15. A JSON body whose fields have the declared types reaches the
    handler with exactly those values, whatever coercions the validators
    apply to other inputs: the POST routes for location-biased search and
    for reverse geocoding are their handlers applied to the fields. *)
Theorem post_body_reaches_handler up :
  (∀ d q lat lon,
     d !! "query" = Some (VStr q) → d !! "lat" = Some (VFloat lat) →
     d !! "lon" = Some (VFloat lon) →
     post_search_location (VDict d) up =
       search_with_location_priority
         {| lsr_query := q; lsr_lat := lat; lsr_lon := lon |} up) ∧
  (∀ d lat lon,
     d !! "lat" = Some (VFloat lat) → d !! "lon" = Some (VFloat lon) →
     post_reverse (VDict d) up =
       reverse_geocode_endpoint {| rgr_lat := lat; rgr_lon := lon |} up).
Proof.
  split.
  - intros d q lat lon Hq Hlat Hlon. unfold post_search_location, required; cbn.
    rewrite Hq, Hlat, Hlon; cbn.
    by rewrite validate_str_id, !validate_float_id, !bind_lift_return.
  - intros d lat lon Hlat Hlon. unfold post_reverse, required; cbn.
    rewrite Hlat, Hlon; cbn. by rewrite !validate_float_id, !bind_lift_return.
Qed.

End Geocoding.

(** ** The program at concrete inputs *)

Lemma strict_str_id s : strict_str (VStr s) = Some s.
Proof. reflexivity. Qed.

Lemma strict_float_id x : strict_float (VFloat x) = Some x.
Proof. reflexivity. Qed.

Example search_places_two_places :
  search_places_get plain_status_message strict_str strict_float "Berlin" (Some 2) None
    two_places =
    ([Request "https://photon.komoot.io/api/"
        (<["q" := VStr "Berlin"]> {["limit" := VInt 2]})],
     Return [ {| name := Some "Berlin"; country := Some "Germany";
                 coordinates := [lon_berlin; lat_berlin];
                 properties := berlin_properties |};
              {| name := None; country := None;
                 coordinates := [lon_berlin; lat_berlin];
                 properties := nameless_properties |} ]).
Proof. vm_compute. reflexivity. Qed.

Example search_places_broken_feature :
  result (search_places_get plain_status_message strict_str strict_float "Berlin" None None
            broken_feature) =
    Raise (PyError "KeyError" "'properties'").
Proof. vm_compute. reflexivity. Qed.

Example reverse_geocode_berlin :
  result (reverse_geocode plain_status_message lat_berlin lon_berlin two_places) =
    Return (VDict berlin_properties).
Proof. vm_compute. reflexivity. Qed.

(** C1. An upstream that answers 200 with an empty feature list: the 404
    raised inside the [try] block is caught by the clause [except Exception]
    of the same block, and the caller gets status 500 with the detail of the
    generic path. *)
Theorem reverse_geocode_no_match_is_500 :
  reverse_geocode plain_status_message lat_berlin lon_berlin no_match =
    ([reverse_geocode_request lat_berlin lon_berlin],
     Raise (HTTPException 500
              "Unexpected error: 404: No location found for the given coordinates")) ∧
  response_status
    (result (reverse_geocode plain_status_message lat_berlin lon_berlin no_match)) = 500.
Proof. split; vm_compute; reflexivity. Qed.

(** C4 as the specification words it fails: here a limit of 0 and an empty
    language are supplied, and the request carries neither. *)
Lemma search_place_drops_zero_limit_and_empty_lang :
  calls (search_place plain_status_message "Berlin" (Some 0) (Some "") no_match) =
    [Request "https://photon.komoot.io/api/" {["q" := VStr "Berlin"]}] ∧
  is_Some (Some 0) ∧
  ({["q" := VStr "Berlin"]} : gmap string value) !! "limit" = None ∧
  is_Some (Some "") ∧
  ({["q" := VStr "Berlin"]} : gmap string value) !! "lang" = None.
Proof. split; [vm_compute; reflexivity|]. repeat split; eauto. Qed.

Lemma upstream_status_is_propagated_witness :
  non_2xx (service_down (search_place_request "Berlin" (Some 2) None)) unavailable ∧
  result (search_place plain_status_message "Berlin" (Some 2) None service_down) =
    Raise (HTTPException 503 "Geocoding service error: HTTP status 503") ∧
  result (search_with_location plain_status_message "Berlin" lat_berlin lon_berlin
            service_down) =
    Raise (HTTPException 503 "Geocoding service error: HTTP status 503") ∧
  result (reverse_geocode plain_status_message lat_berlin lon_berlin service_down) =
    Raise (HTTPException 503 "Geocoding service error: HTTP status 503").
Proof.
  assert (Hdown : ∀ req, non_2xx (service_down req) unavailable).
  { intros req. split; [reflexivity | cbn; lia]. }
  destruct (upstream_status_is_propagated plain_status_message "Berlin" (Some 2) None
              lat_berlin lon_berlin service_down unavailable)
    as (Hsearch & Hlocation & Hreverse).
  split; [apply Hdown|].
  split; [apply Hsearch, Hdown|].
  split; [apply Hlocation, Hdown | apply Hreverse, Hdown].
Defined.

Lemma other_failure_is_500_witness :
  other_failure (unreachable (search_place_request "Berlin" None None))
    (PyError "ConnectError" "connection refused") ∧
  result (search_place plain_status_message "Berlin" None None unreachable) =
    Raise (HTTPException 500 "Unexpected error: connection refused") ∧
  result (search_with_location plain_status_message "Berlin" lat_berlin lon_berlin
            unreachable) =
    Raise (HTTPException 500 "Unexpected error: connection refused") ∧
  result (reverse_geocode plain_status_message lat_berlin lon_berlin unreachable) =
    Raise (HTTPException 500 "Unexpected error: connection refused").
Proof.
  assert (Hfail : ∀ req, other_failure (unreachable req)
                           (PyError "ConnectError" "connection refused")).
  { intros req. apply transport_failure. }
  destruct (other_failure_is_500 plain_status_message "Berlin" None None
              lat_berlin lon_berlin unreachable
              (PyError "ConnectError" "connection refused"))
    as (Hsearch & Hlocation & Hreverse).
  split; [apply Hfail|].
  split; [apply Hsearch, Hfail|].
  split; [apply Hlocation, Hfail | apply Hreverse, Hfail].
Defined.

Lemma two_places_succeed req : succeeds_with (two_places req) (VList [berlin; nameless]).
Proof.
  eexists _, _. split; [reflexivity|]. split; [cbn; lia|]. split; reflexivity.
Qed.

Lemma broken_feature_succeeds req :
  succeeds_with (broken_feature req) (VList [berlin; bare]).
Proof.
  eexists _, _. split; [reflexivity|]. split; [cbn; lia|]. split; reflexivity.
Qed.

Lemma reverse_geocode_first_properties_witness :
  succeeds_with (two_places (reverse_geocode_request lat_berlin lon_berlin))
    (VList [berlin; nameless]) ∧
  berlin_object !! "properties" = Some (VDict berlin_properties) ∧
  reverse_geocode plain_status_message lat_berlin lon_berlin two_places =
    ([reverse_geocode_request lat_berlin lon_berlin], Return (VDict berlin_properties)) ∧
  reverse_geocode_endpoint plain_status_message
    {| rgr_lat := lat_berlin; rgr_lon := lon_berlin |} two_places =
    ([reverse_geocode_request lat_berlin lon_berlin], Return (VDict berlin_properties)) ∧
  reverse_geocode_endpoint_get plain_status_message lat_berlin lon_berlin two_places =
    ([reverse_geocode_request lat_berlin lon_berlin], Return (VDict berlin_properties)).
Proof.
  split; [apply two_places_succeed|]. split; [reflexivity|].
  apply (reverse_geocode_first_properties plain_status_message lat_berlin lon_berlin
           two_places berlin_object [nameless] berlin_properties);
    [apply two_places_succeed | reflexivity].
Defined.

Lemma location_search_needs_lat_and_lon_witness :
  ({["query" := "Berlin"; "lat" := "52.5"]} : gmap string string) !! "lon" = None ∧
  get_search_location plain_status_message strict_str strict_float
    {["query" := "Berlin"; "lat" := "52.5"]} two_places =
    ([], Raise RequestValidationError) ∧
  body_field (VDict {["query" := VStr "Berlin"; "lon" := VFloat lon_berlin]}) "lat" = None ∧
  post_search_location plain_status_message strict_str strict_float
    (VDict {["query" := VStr "Berlin"; "lon" := VFloat lon_berlin]}) two_places =
    ([], Raise RequestValidationError).
Proof.
  destruct (location_search_needs_lat_and_lon plain_status_message strict_str strict_float)
    as (_ & Hget & Hpost).
  split; [reflexivity|]. split; [apply Hget; right; reflexivity|].
  split; [reflexivity|]. apply Hpost; left; reflexivity.
Defined.

Lemma project_feature_witness :
  nameless_object !! "properties" = Some (VDict nameless_properties) ∧
  nameless_properties !! "name" = None ∧
  ∃ r, project strict_str strict_float nameless = Return r ∧
       name r = None ∧ country r = None ∧
       coordinates r = [lon_berlin; lat_berlin] ∧
       properties r = nameless_properties.
Proof.
  split; [reflexivity|]. split; [reflexivity|].
  destruct (project_feature strict_str strict_float strict_str_id strict_float_id
              nameless_object nameless_properties {["coordinates" := point]}
              [lon_berlin; lat_berlin])
    as (r & Hr & _ & _ & Hname & Hcountry & Hcoords & Hprops);
    [reflexivity | reflexivity | reflexivity | exact I | exact I |].
  exists r. split; [exact Hr|].
  split; [apply Hname; reflexivity|]. split; [apply Hcountry; reflexivity|].
  split; [exact Hcoords | exact Hprops].
Defined.

Lemma search_results_mirror_features_witness :
  succeeds_with (two_places (search_place_request "Berlin" (Some 2) None))
    (VList [berlin; nameless]) ∧
  mirrors [berlin; nameless]
    (result (search_places plain_status_message strict_str strict_float
               {| psr_query := "Berlin"; psr_limit := Some 2; psr_lang := None |}
               two_places)) ∧
  mirrors [berlin; nameless]
    (result (search_with_location_priority_get plain_status_message strict_str strict_float
               "Berlin" lat_berlin lon_berlin two_places)).
Proof.
  destruct (search_results_mirror_features plain_status_message strict_str strict_float
              strict_str_id strict_float_id "Berlin" (Some 2) None lat_berlin lon_berlin
              two_places [berlin; nameless]) as (Hsearch & Hlocation).
  split; [apply two_places_succeed|].
  split; [apply Hsearch, two_places_succeed | apply Hlocation, two_places_succeed].
Defined.

Lemma missing_key_is_not_translated_witness :
  Exists lacks_key [berlin; bare] ∧
  succeeds_with (broken_feature (search_place_request "Berlin" None None))
    (VList [berlin; bare]) ∧
  untranslated
    (result (search_places_get plain_status_message strict_str strict_float
               "Berlin" None None broken_feature)) ∧
  untranslated
    (result (search_with_location_priority plain_status_message strict_str strict_float
               {| lsr_query := "Berlin"; lsr_lat := lat_berlin; lsr_lon := lon_berlin |}
               broken_feature)).
Proof.
  assert (Hbare : Exists lacks_key [berlin; bare]).
  { apply Exists_cons_tl, Exists_cons_hd. exists bare_object.
    split; [reflexivity | left; reflexivity]. }
  destruct (missing_key_is_not_translated plain_status_message strict_str strict_float
              "Berlin" None None lat_berlin lon_berlin broken_feature [berlin; bare] Hbare)
    as (Hsearch & Hlocation).
  split; [exact Hbare|]. split; [apply broken_feature_succeeds|].
  split; [apply Hsearch, broken_feature_succeeds | apply Hlocation, broken_feature_succeeds].
Defined.

(** ** The further properties at concrete inputs *)

Lemma strict_int_id n : strict_int (VInt n) = Some n.
Proof. reflexivity. Qed.

Lemma upstream_404_fails req : non_2xx (upstream_404 req) not_found.
Proof. split; [reflexivity | cbn; lia]. Qed.

Lemma upstream_functions_raise_translated_witness :
  result (reverse_geocode plain_status_message lat_berlin lon_berlin upstream_404) =
    Raise (HTTPException 404 "Geocoding service error: HTTP status 404") ∧
  translated plain_status_message
    (upstream_404 (reverse_geocode_request lat_berlin lon_berlin))
    (HTTPException 404 "Geocoding service error: HTTP status 404").
Proof.
  assert (Hrun : result (reverse_geocode plain_status_message lat_berlin lon_berlin
                           upstream_404) =
                 Raise (HTTPException 404 "Geocoding service error: HTTP status 404"))
    by (vm_compute; reflexivity).
  split; [exact Hrun|].
  apply (upstream_functions_raise_translated plain_status_message "Berlin" None None
           lat_berlin lon_berlin upstream_404), Hrun.
Defined.

Lemma upstream_functions_return_iff_witness :
  succeeds_with (two_places (search_place_request "Berlin" None None))
    (VList [berlin; nameless]) ∧
  result (search_place plain_status_message "Berlin" None None two_places) =
    Return (VList [berlin; nameless]).
Proof.
  split; [apply two_places_succeed|].
  apply (upstream_functions_return_iff plain_status_message "Berlin" None None
           lat_berlin lon_berlin two_places), two_places_succeed.
Defined.

Lemma bare_first_succeeds req : succeeds_with (bare_first req) (VList [bare; berlin]).
Proof.
  eexists _, _. split; [reflexivity|]. split; [cbn; lia|]. split; reflexivity.
Qed.

Lemma reverse_geocode_missing_properties_witness :
  bare_object !! "properties" = None ∧
  result (reverse_geocode plain_status_message lat_berlin lon_berlin bare_first) =
    Raise (HTTPException 500 "Unexpected error: 'properties'").
Proof.
  split; [reflexivity|].
  apply (reverse_geocode_missing_properties plain_status_message lat_berlin lon_berlin
           bare_first bare_object [berlin]); [apply bare_first_succeeds | reflexivity].
Defined.

Lemma search_handlers_pass_on_failure_witness :
  non_2xx (service_down (search_place_request "Berlin" None None)) unavailable ∧
  result (search_places_get plain_status_message strict_str strict_float
            "Berlin" None None service_down) =
    Raise (HTTPException 503 "Geocoding service error: HTTP status 503").
Proof.
  assert (Hdown : non_2xx (service_down (search_place_request "Berlin" None None))
                    unavailable).
  { split; [reflexivity | cbn; lia]. }
  split; [exact Hdown|].
  apply (proj1 (search_handlers_pass_on_failure plain_status_message strict_str
                  strict_float service_down _ _
                  (run_search_places_get plain_status_message strict_str strict_float
                     service_down "Berlin" None None)) unavailable Hdown).
Defined.

Lemma search_handlers_return_projections_witness :
  project strict_str strict_float berlin =
    Return {| name := Some "Berlin"; country := Some "Germany";
              coordinates := [lon_berlin; lat_berlin];
              properties := berlin_properties |} ∧
  result (search_places_get plain_status_message strict_str strict_float
            "Berlin" None None (always (ok [berlin]))) =
    Return [ {| name := Some "Berlin"; country := Some "Germany";
                coordinates := [lon_berlin; lat_berlin];
                properties := berlin_properties |} ].
Proof.
  assert (Hberlin : project strict_str strict_float berlin =
                    Return {| name := Some "Berlin"; country := Some "Germany";
                              coordinates := [lon_berlin; lat_berlin];
                              properties := berlin_properties |})
    by (vm_compute; reflexivity).
  split; [exact Hberlin|].
  apply (search_handlers_return_projections plain_status_message strict_str strict_float
           (always (ok [berlin])) _ _ [berlin] _
           (run_search_places_get plain_status_message strict_str strict_float
              (always (ok [berlin])) "Berlin" None None)).
  - eexists _, _. split; [reflexivity|]. split; [cbn; lia|]. split; reflexivity.
  - constructor; [exact Hberlin | constructor].
Defined.

Lemma no_match_succeeds req : succeeds_with (no_match req) (VList []).
Proof.
  eexists _, _. split; [reflexivity|]. split; [cbn; lia|]. split; reflexivity.
Qed.

Lemma search_handlers_empty_list_witness :
  succeeds_with (no_match (search_with_location_request "Berlin" lat_berlin lon_berlin))
    (VList []) ∧
  result (search_with_location_priority_get plain_status_message strict_str strict_float
            "Berlin" lat_berlin lon_berlin no_match) = Return [].
Proof.
  split; [apply no_match_succeeds|].
  apply (search_handlers_empty_list plain_status_message strict_str strict_float
           no_match _ _
           (run_search_with_location_priority_get plain_status_message strict_str
              strict_float no_match "Berlin" lat_berlin lon_berlin)
           (no_match_succeeds _)).
Defined.

Lemma search_handlers_first_failure_witness :
  project strict_str strict_float bare = Raise (PyError "KeyError" "'properties'") ∧
  result (search_places_get plain_status_message strict_str strict_float
            "Berlin" None None broken_feature) =
    Raise (PyError "KeyError" "'properties'").
Proof.
  assert (Hbare : project strict_str strict_float bare =
                  Raise (PyError "KeyError" "'properties'"))
    by (vm_compute; reflexivity).
  split; [exact Hbare|].
  apply (search_handlers_first_failure plain_status_message strict_str strict_float
           broken_feature _ _ [berlin] bare [] _
           (run_search_places_get plain_status_message strict_str strict_float
              broken_feature "Berlin" None None)).
  - apply broken_feature_succeeds.
  - constructor; [|constructor]. eexists. vm_compute. reflexivity.
  - exact Hbare.
Defined.

Lemma null_features_succeed req : succeeds_with (null_features req) VNone.
Proof.
  eexists _, _. split; [reflexivity|]. split; [cbn; lia|]. split; reflexivity.
Qed.

Lemma search_handlers_features_not_iterable_witness :
  not_iterable VNone ∧
  result (search_places_get plain_status_message strict_str strict_float
            "Berlin" None None null_features) =
    Raise (PyError "TypeError" "'NoneType' object is not iterable").
Proof.
  split; [exact I|].
  apply (search_handlers_features_not_iterable plain_status_message strict_str
           strict_float null_features _ _ VNone
           (run_search_places_get plain_status_message strict_str strict_float
              null_features "Berlin" None None));
    [apply null_features_succeed | exact I].
Defined.

Lemma project_names_first_missing_key_witness :
  bare_object !! "properties" = None ∧
  project strict_str strict_float (VDict bare_object) =
    Raise (PyError "KeyError" "'properties'").
Proof.
  split; [reflexivity|].
  apply (project_names_first_missing_key strict_str strict_float bare_object).
  reflexivity.
Defined.

Lemma project_properties_not_object_witness :
  null_properties_object !! "properties" = Some VNone ∧
  project strict_str strict_float (VDict null_properties_object) =
    Raise (PyError "AttributeError" "'NoneType' object has no attribute 'get'").
Proof.
  split; [reflexivity|].
  apply (project_properties_not_object strict_str strict_float null_properties_object
           VNone {["coordinates" := point]} point);
    [reflexivity | discriminate | reflexivity | reflexivity].
Defined.

Lemma missing_required_parameter_is_refused_witness :
  lat_only !! "query" = None ∧ lat_only !! "lon" = None ∧
  get_search plain_status_message strict_str strict_int strict_float lat_only two_places =
    ([], Raise RequestValidationError) ∧
  get_reverse plain_status_message strict_float lat_only two_places =
    ([], Raise RequestValidationError) ∧
  post_search plain_status_message strict_str strict_int strict_float (VList []) two_places =
    ([], Raise RequestValidationError).
Proof.
  destruct (missing_required_parameter_is_refused plain_status_message strict_str
              strict_int strict_float two_places)
    as (Hquery & _ & Hreverse & _ & Hbody).
  split; [reflexivity|]. split; [reflexivity|].
  split; [apply Hquery; reflexivity|].
  split; [apply Hreverse; right; reflexivity|].
  apply Hbody. discriminate.
Defined.

Lemma optional_parameters_default_to_none_witness :
  berlin_body !! "query" = Some (VStr "Berlin") ∧
  left_out (berlin_body !! "limit") ∧ left_out (berlin_body !! "lang") ∧
  post_search plain_status_message strict_str strict_int strict_float
    (VDict berlin_body) two_places =
    search_places plain_status_message strict_str strict_float
      {| psr_query := "Berlin"; psr_limit := None; psr_lang := None |} two_places.
Proof.
  split; [reflexivity|]. split; [right; reflexivity|]. split; [left; reflexivity|].
  apply (optional_parameters_default_to_none plain_status_message strict_str strict_int
           strict_float strict_str_id "Berlin" two_places);
    [reflexivity | right; reflexivity | left; reflexivity].
Defined.

Lemma post_body_reaches_handler_witness :
  berlin_location_body !! "lat" = Some (VFloat lat_berlin) ∧
  post_search_location plain_status_message strict_str strict_float
    (VDict berlin_location_body) two_places =
    search_with_location_priority plain_status_message strict_str strict_float
      {| lsr_query := "Berlin"; lsr_lat := lat_berlin; lsr_lon := lon_berlin |} two_places ∧
  post_reverse plain_status_message strict_float (VDict berlin_location_body) two_places =
    reverse_geocode_endpoint plain_status_message
      {| rgr_lat := lat_berlin; rgr_lon := lon_berlin |} two_places.
Proof.
  destruct (post_body_reaches_handler plain_status_message strict_str strict_float
              strict_str_id strict_float_id two_places) as (Hlocation & Hreverse).
  split; [reflexivity|].
  split; [apply Hlocation; reflexivity | apply Hreverse; reflexivity].
Defined.
